(** * menpofit.aps.fitter: wiring of the per-scale Gauss-Newton algorithms

    A shallow embedding of [menpofit/aps/fitter.py].  The module is object
    wiring: a fitter object receives attributes one statement at a time, the
    trained model is only referenced, and every failure is an exception that
    propagates to the caller.  Objects live in a store indexed by references;
    a method is a state-and-exception computation over that store. *)

From stdpp Require Import gmap strings list fin_maps.

Set Default Proof Using "Type".

(** ** The collaborators the module imports

    [menpofit.fitter], [menpofit.modelinstance], [menpofit.checks],
    [.result] and [.algorithm.gn] are imported, not defined, by the module.
    What the wiring code never looks inside stays abstract: the kinds of
    sub-model, the array and transform types, the class handed in as
    [gn_algorithm_cls], and the result of [am.mean()].  The calls
    [am.mean()], [OrthoPDM(sm)], [PDM(sm)], [GaussNewtonBaseInterface(...)]
    and [gn_algorithm_cls(interface)] build objects and are taken to
    return; the two validation helpers and list indexing are what can
    raise. *)

Class Collaborators := {
  AppearanceModel : Type;
  ShapeModel : Type;
  DeformationModel : Type;
  Template : Type;
  ndarray : Type;
  PatchShape : Type;
  PatchNormalisation : Type;
  Scales : Type;
  ReferenceShape : Type;
  HolisticFeatures : Type;
  GaussNewtonClass : Type;
  ShapeComponents : Type;
  Image : Type;
  APSAlgorithmResult : Type;
  Affine : Type;
  ScaleTransform : Type;
  PointCloud : Type;
  (** [am.mean()] *)
  mean : AppearanceModel → Template;
  (** the default of [gn_algorithm_cls] *)
  Inverse : GaussNewtonClass
}.

(** References to objects. *)
Abbreviation loc := positive.

Inductive exn :=
  | ValueError (msg : string)
  | IndexError
  | AttributeError (name : string).

Inductive result (A : Type) :=
  | Ok (a : A)
  | Raise (e : exn).
Arguments Ok {A} a.
Arguments Raise {A} e.

Section Store.
Context `{Collaborators}.

(** ** Data *)

(** One entry of the sampling list: [None], an [int] step or an explicit
    [ndarray] mask (docstring of [GaussNewtonAPSFitter]). *)
Inductive sampling_entry :=
  | SamplingNone
  | SamplingStep (step : Z)
  | SamplingMask (mask : ndarray).

(** The [sampling] argument: one such value, or a list of them. *)
Inductive sampling_arg :=
  | SamplingValue (s : sampling_entry)
  | SamplingList (l : list sampling_entry).

(** [menpofit.modelinstance]: the two wrappers around a shape model. *)
Inductive pdm :=
  | OrthoPDM (sm : ShapeModel)
  | PDM (sm : ShapeModel).

(** The object [GaussNewtonBaseInterface(...)] is called with eight
    positional arguments; the interface object is the record of them, in
    call order. *)
Record interface := GaussNewtonBaseInterface {
  interface_appearance_model : AppearanceModel;
  interface_deformation_model : DeformationModel;
  interface_transform : pdm;
  interface_use_deformation_cost : bool;
  interface_template : Template;
  interface_sampling : sampling_entry;
  interface_patch_shape : PatchShape;
  interface_patch_normalisation : PatchNormalisation
}.

(** [gn_algorithm_cls(interface)]: an algorithm object is the class that was
    called together with the interface it was called on.  Algorithm objects
    and the list that holds them are compared by content, not by identity. *)
Record algorithm := Algorithm {
  algorithm_cls : GaussNewtonClass;
  algorithm_interface : interface
}.

(** The attributes of the trained model that the module reads. *)
Record GenerativeAPS := {
  appearance_models : list AppearanceModel;
  shape_models : list ShapeModel;
  deformation_models : list DeformationModel;
  patch_shape : list PatchShape;
  patch_normalisation : list PatchNormalisation;
  use_procrustes : bool;
  n_scales : nat;
  scales : Scales;
  reference_shape : ReferenceShape;
  holistic_features : HolisticFeatures
}.


(** ** The object store *)

(** What an attribute of a fitter can hold. *)
Inductive value :=
  | VRef (l : loc)
  | VSampling (ss : list sampling_entry)
  | VAlgorithms (algs : list algorithm)
  | VScales (s : Scales)
  | VReferenceShape (r : ReferenceShape)
  | VHolisticFeatures (f : HolisticFeatures).

(** A trained model is read-only here; a fitter is its attribute
    dictionary ([self.__dict__]). *)
Inductive object :=
  | ModelObject (m : GenerativeAPS)
  | FitterObject (attrs : gmap string value).

#[local] Abbreviation heap := (gmap loc object).

(** ** Computations: a store and an exception *)

Definition M (A : Type) : Type := heap → result A * heap.

#[export] Instance M_ret : MRet M := λ A a h, (Ok a, h).

(** The store at the point of a [raise] is kept: assignments made before an
    exception are not undone. *)
#[export] Instance M_bind : MBind M := λ A B f m h,
  match m h with
  | (Ok a, h') => f a h'
  | (Raise e, h') => (Raise e, h')
  end.

Definition raise {A} (e : exn) : M A := λ h, (Raise e, h).

(** [self.name = v] *)
Definition setattr (self : loc) (name : string) (v : value) : M unit := λ h,
  match h !! self with
  | Some (FitterObject d) =>
      (Ok (), <[self := FitterObject (<[name := v]> d)]> h)
  | _ => (Raise (AttributeError name), h)
  end.

(** [self.name] *)
Definition getattr (self : loc) (name : string) : M value := λ h,
  match h !! self with
  | Some (FitterObject d) =>
      match d !! name with
      | Some v => (Ok v, h)
      | None => (Raise (AttributeError name), h)
      end
  | _ => (Raise (AttributeError name), h)
  end.

(** [v.name] for an attribute [name] of the trained model. *)
Definition model_attr {A} (v : value) (name : string)
    (field : GenerativeAPS → A) : M A := λ h,
  match v with
  | VRef l =>
      match h !! l with
      | Some (ModelObject m) => (Ok (field m), h)
      | _ => (Raise (AttributeError name), h)
      end
  | _ => (Raise (AttributeError name), h)
  end.

(** [l[j]] with [0 <= j]: [IndexError] past the end. *)
Definition index {A} (l : list A) (j : nat) : M A :=
  match l !! j with
  | Some x => mret x
  | None => raise IndexError
  end.

(** Allocation of a new, empty instance. *)
Definition new_object : M loc := λ h,
  let l := fresh (dom h) in (Ok l, <[l := FitterObject ∅]> h).

(** [for x in xs: body(x)] *)
Fixpoint for_each {A} (xs : list A) (body : A → M unit) : M unit :=
  match xs with
  | [] => mret ()
  | x :: xs' => body x;; for_each xs' body
  end.

(** [zip] of four lists stops at the shortest. *)
Fixpoint zip {A B C D} (l1 : list A) (l2 : list B) (l3 : list C)
    (l4 : list D) : list (A * B * C * D) :=
  match l1, l2, l3, l4 with
  | a :: l1', b :: l2', c :: l3', d :: l4' => (a, b, c, d) :: zip l1' l2' l3' l4'
  | _, _, _, _ => []
  end.

(** [enumerate] counts from [0]. *)
Fixpoint enumerate_from {A} (j : nat) (l : list A) : list (nat * A) :=
  match l with
  | [] => []
  | x :: l' => (j, x) :: enumerate_from (S j) l'
  end.

Definition enumerate {A} (l : list A) : list (nat * A) := enumerate_from 0 l.

End Store.

Abbreviation heap := (gmap loc object).

(** ** class APSFitter(MultiScaleParametricFitter) *)

Module APSFitter.
Section methods.
Context `{Collaborators}.

(** The [scales] accessor is inherited from [MultiScaleParametricFitter],
    which the module imports: it reads the fitter and either yields the
    scales or raises. *)
Variable scales_accessor : heap → loc → exn + Scales.



(** Modelled from the spec: [MultiScaleParametricFitter.__init__], the
    initialiser of the imported orchestration base.  It "accepts (scales,
    reference shape, holistic feature config, algorithm list) at
    construction" and the base object "stores" the algorithm list: the four
    keyword arguments become attributes of the fitter under their keyword
    names. *)
Definition MultiScaleParametricFitter__init__ (self : loc) (sc : Scales)
    (rs : ReferenceShape) (hf : HolisticFeatures)
    (algorithms : list algorithm) : M unit :=
  setattr self "scales" (VScales sc);;
  setattr self "reference_shape" (VReferenceShape rs);;
  setattr self "holistic_features" (VHolisticFeatures hf);;
  setattr self "algorithms" (VAlgorithms algorithms).

Definition __init__ (self : loc) (aps : loc) (algorithms : list algorithm)
    : M unit :=
  setattr self "_model" (VRef aps);;
  sc ← model_attr (VRef aps) "scales" scales;
  rs ← model_attr (VRef aps) "reference_shape" reference_shape;
  hf ← model_attr (VRef aps) "holistic_features" holistic_features;
  MultiScaleParametricFitter__init__ self sc rs hf algorithms.

(** The property [aps]. *)
Definition aps (self : loc) : M value := getattr self "_model".


(** The call [APSFitter(aps, algorithms)]: a new instance is allocated,
    initialised, and only then handed to the caller. *)
Definition new (aps : loc) (algorithms : list algorithm) : M loc :=
  self ← new_object;
  __init__ self aps algorithms;;
  mret self.

End methods.
End APSFitter.

(** ** class GaussNewtonAPSFitter(APSFitter) *)

Module GaussNewtonAPSFitter.
Section methods.
Context `{Collaborators}.

(** The two validation helpers are imported.  [_check_n_shape] is a method
    of the orchestration base: it reads the fitter and either raises or
    returns.  The number of active components that it sets is state inside
    the shape-model objects; the store here holds the fitters and the
    attribute record of the model, whose lists only refer to those objects,
    so that state is outside it and nothing below speaks about it.
    [checks.check_sampling] either raises or returns the normalised list. *)
Variable check_n_shape : heap → loc → ShapeComponents → option exn.
Variable check_sampling : sampling_arg → nat → exn + list sampling_entry.

Definition _check_n_shape (self : loc) (n_shape : ShapeComponents) : M unit :=
  λ h, match check_n_shape h self n_shape with
       | Some e => (Raise e, h)
       | None => (Ok (), h)
       end.

Definition checks_check_sampling (sampling : sampling_arg) (n : nat)
    : M (list sampling_entry) :=
  λ h, match check_sampling sampling n with
       | inl e => (Raise e, h)
       | inr l => (Ok l, h)
       end.

(** [self._sampling] and [self.algorithms], read back as lists. *)
Definition self_sampling (self : loc) : M (list sampling_entry) :=
  v ← getattr self "_sampling";
  match v with
  | VSampling ss => mret ss
  | _ => raise (AttributeError "_sampling")
  end.

Definition self_algorithms (self : loc) : M (list algorithm) :=
  v ← getattr self "algorithms";
  match v with
  | VAlgorithms algs => mret algs
  | _ => raise (AttributeError "algorithms")
  end.

(** The body of the loop of [_set_up], for one [(j, (am, sm, dm, s))]. *)
Definition _set_up_body (self : loc) (gn_algorithm_cls : GaussNewtonClass)
    (use_deformation_cost : bool)
    (x : nat * (AppearanceModel * ShapeModel * DeformationModel * sampling_entry))
    : M unit :=
  let '(j, (am, sm, dm, s)) := x in
  let template := mean am in
  model ← getattr self "_model";
  procrustes ← model_attr model "use_procrustes" use_procrustes;
  let pdm := if procrustes : bool then OrthoPDM sm else PDM sm in
  a ← APSFitter.aps self;
  shapes ← model_attr a "patch_shape" patch_shape;
  ps ← index shapes j;
  a ← APSFitter.aps self;
  normalisations ← model_attr a "patch_normalisation" patch_normalisation;
  pn ← index normalisations j;
  let interface :=
    GaussNewtonBaseInterface am dm pdm use_deformation_cost template s ps pn in
  algs ← self_algorithms self;
  setattr self "algorithms" (VAlgorithms (algs ++ [Algorithm gn_algorithm_cls interface])).

Definition _set_up (self : loc) (gn_algorithm_cls : GaussNewtonClass)
    (use_deformation_cost : bool) : M unit :=
  setattr self "algorithms" (VAlgorithms []);;
  a ← APSFitter.aps self;
  ams ← model_attr a "appearance_models" appearance_models;
  a ← APSFitter.aps self;
  sms ← model_attr a "shape_models" shape_models;
  a ← APSFitter.aps self;
  dms ← model_attr a "deformation_models" deformation_models;
  ss ← self_sampling self;
  for_each (enumerate (zip ams sms dms ss))
           (_set_up_body self gn_algorithm_cls use_deformation_cost).

Definition __init__ (self : loc) (aps : loc)
    (gn_algorithm_cls : GaussNewtonClass) (n_shape : ShapeComponents)
    (use_deformation_cost : bool) (sampling : sampling_arg) : M unit :=
  setattr self "_model" (VRef aps);;
  _check_n_shape self n_shape;;
  n ← model_attr (VRef aps) "n_scales" n_scales;
  ss ← checks_check_sampling sampling n;
  setattr self "_sampling" (VSampling ss);;
  _set_up self gn_algorithm_cls use_deformation_cost.

(** The call [GaussNewtonAPSFitter(aps, gn_algorithm_cls, n_shape,
    use_deformation_cost, sampling)]: the reference to the new instance
    reaches the caller only when [__init__] returns. *)
Definition new (aps : loc) (gn_algorithm_cls : GaussNewtonClass)
    (n_shape : ShapeComponents) (use_deformation_cost : bool)
    (sampling : sampling_arg) : M loc :=
  self ← new_object;
  __init__ self aps gn_algorithm_cls n_shape use_deformation_cost sampling;;
  mret self.

End methods.
End GaussNewtonAPSFitter.

(** ** module menpofit.checks *)

Module checks.
Section functions.
Context `{Collaborators}.

(** Modelled from the spec: [checks.check_sampling], imported from
    [menpofit.checks].  The sampling specification is "normalized via an
    external routine into exactly one entry per scale (values: None, an
    integer step, or an explicit boolean/index mask); a count mismatch fails
    with an error raised by that routine".  A single value stands for every
    scale; a list must have one entry per scale. *)
Definition check_sampling (sampling : sampling_arg) (n_scales : nat)
    : exn + list sampling_entry :=
  match sampling with
  | SamplingValue s => inr (replicate n_scales s)
  | SamplingList l =>
      if decide (length l = n_scales) then inr l
      else inl (ValueError "sampling: one entry per scale is needed")
  end.

End functions.
End checks.

(** ** What the wiring loop computes

    The loop of [_set_up] read as a function: the algorithm built for one
    tuple of the enumeration, and the list built until the first tuple whose
    patch entries are missing. *)

Section Wiring.
Context `{Collaborators}.

Definition wire (m : GenerativeAPS) (gn_algorithm_cls : GaussNewtonClass)
    (use_deformation_cost : bool)
    (x : nat * (AppearanceModel * ShapeModel * DeformationModel * sampling_entry))
    : option algorithm :=
  let '(j, (am, sm, dm, s)) := x in
  ps ← patch_shape m !! j;
  pn ← patch_normalisation m !! j;
  Some (Algorithm gn_algorithm_cls
          (GaussNewtonBaseInterface am dm
             (if use_procrustes m then OrthoPDM sm else PDM sm)
             use_deformation_cost (mean am) s ps pn)).

Fixpoint wire_all (m : GenerativeAPS) (gn_algorithm_cls : GaussNewtonClass)
    (use_deformation_cost : bool)
    (xs : list (nat * (AppearanceModel * ShapeModel * DeformationModel * sampling_entry)))
    : list algorithm * option exn :=
  match xs with
  | [] => ([], None)
  | x :: xs' =>
      match wire m gn_algorithm_cls use_deformation_cost x with
      | Some a =>
          let '(algs, e) := wire_all m gn_algorithm_cls use_deformation_cost xs' in
          (a :: algs, e)
      | None => ([], Some IndexError)
      end
  end.

(** The tuples the loop of [_set_up] runs over. *)
Definition scale_tuples (m : GenerativeAPS) (ss : list sampling_entry) :=
  enumerate (zip (appearance_models m) (shape_models m)
                 (deformation_models m) ss).

(** The length of the shortest of the four lists that [_set_up] zips. *)
Definition shortest_list (m : GenerativeAPS) (ss : list sampling_entry)
    : nat :=
  length (appearance_models m)
  `min` (length (shape_models m)
  `min` (length (deformation_models m) `min` length ss)).

(** The attribute dictionary of a fitter built by [GaussNewtonAPSFitter]. *)
Definition wired_attrs (aps : loc) (ss : list sampling_entry)
    (algs : list algorithm) : gmap string value :=
  <["algorithms" := VAlgorithms algs]>
    (<["_sampling" := VSampling ss]> {["_model" := VRef aps]}).

(** What the fitter at [self] holds under [name], if anything. *)
Definition fitter_attr (h : heap) (self : loc) (name : string)
    : option value :=
  match h !! self with
  | Some (FitterObject d) => d !! name
  | _ => None
  end.

(** The object [o] holds a reference to [l] in one of its attributes. *)
Definition refers_to (o : object) (l : loc) : Prop :=
  match o with
  | FitterObject d => ∃ name, d !! name = Some (VRef l)
  | ModelObject _ => False
  end.

(** The attribute dictionary of a fitter built by [APSFitter]. *)
Definition base_attrs (aps : loc) (m : GenerativeAPS)
    (algs : list algorithm) : gmap string value :=
  <["algorithms" := VAlgorithms algs]>
    (<["holistic_features" := VHolisticFeatures (holistic_features m)]>
       (<["reference_shape" := VReferenceShape (reference_shape m)]>
          (<["scales" := VScales (scales m)]> {["_model" := VRef aps]}))).

(** The store in which [__init__] runs its first statement, and the store
    after it. *)
Definition allocated (h : heap) : heap :=
  <[fresh (dom h) := FitterObject ∅]> h.

Definition model_stored (h : heap) (aps : loc) : heap :=
  <[fresh (dom h) := FitterObject {["_model" := VRef aps]}]> h.

(** The store is in the shape the loop keeps: the fitter knows its model,
    the model is a model, and [self.algorithms] is the list built so far. *)
Record wiring_state (h : heap) (self aps : loc) (m : GenerativeAPS)
    (d : gmap string value) (acc : list algorithm) : Prop := {
  ws_self : h !! self = Some (FitterObject d);
  ws_model : d !! "_model" = Some (VRef aps);
  ws_aps : h !! aps = Some (ModelObject m);
  ws_algorithms : d !! "algorithms" = Some (VAlgorithms acc)
}.

(** The store once [self.algorithms] holds [algs]. *)
Definition appended (h : heap) (self : loc) (d : gmap string value)
    (algs : list algorithm) : heap :=
  <[self := FitterObject (<["algorithms" := VAlgorithms algs]> d)]> h.

(** The outcome of the call [GaussNewtonAPSFitter(...)], statement by
    statement: the store and the exception, if any, that the caller is left
    with. *)
Definition construction
    (check_n_shape : heap → loc → ShapeComponents → option exn)
    (check_sampling : sampling_arg → nat → exn + list sampling_entry)
    (aps : loc) (gn_algorithm_cls : GaussNewtonClass)
    (n_shape : ShapeComponents) (use_deformation_cost : bool)
    (sampling : sampling_arg) (h : heap) : result loc * heap :=
  let self := fresh (dom h) in
  match check_n_shape (model_stored h aps) self n_shape with
  | Some e => (Raise e, model_stored h aps)
  | None =>
      match h !! aps with
      | Some (ModelObject m) =>
          match check_sampling sampling (n_scales m) with
          | inl e => (Raise e, model_stored h aps)
          | inr ss =>
              let r := wire_all m gn_algorithm_cls use_deformation_cost
                                (scale_tuples m ss) in
              (match r.2 with None => Ok self | Some e => Raise e end,
               <[self := FitterObject (wired_attrs aps ss r.1)]> h)
          end
      | _ => (Raise (AttributeError "n_scales"), model_stored h aps)
      end
  end.

End Wiring.

(** ** A concrete set of collaborators, for examples *)

#[export] Instance example_collaborators : Collaborators := {|
  AppearanceModel := nat;
  ShapeModel := nat;
  DeformationModel := nat;
  Template := nat;
  ndarray := list bool;
  PatchShape := nat * nat;
  PatchNormalisation := string;
  Scales := list nat;
  ReferenceShape := list (nat * nat);
  HolisticFeatures := string;
  GaussNewtonClass := string;
  ShapeComponents := option nat;
  Image := string;
  APSAlgorithmResult := nat;
  Affine := nat;
  ScaleTransform := nat;
  PointCloud := list (nat * nat);
  mean := λ am, 100 + am;
  Inverse := "Inverse"
|}.

Module Example.

(** A model with two scales and every per-scale list of length two. *)
Definition model : GenerativeAPS := {|
  appearance_models := [1; 2];
  shape_models := [11; 12];
  deformation_models := [21; 22];
  patch_shape := [(17, 17); (9, 9)];
  patch_normalisation := ["no_op"; "normalize_norm"];
  use_procrustes := true;
  n_scales := 2;
  scales := [1; 2];
  reference_shape := [(0, 0); (4, 4)];
  holistic_features := "no_op"
|}.

(** The same model without its patch shapes. *)
Definition model_without_patch_shapes : GenerativeAPS := {|
  appearance_models := [1; 2];
  shape_models := [11; 12];
  deformation_models := [21; 22];
  patch_shape := [];
  patch_normalisation := ["no_op"; "normalize_norm"];
  use_procrustes := true;
  n_scales := 2;
  scales := [1; 2];
  reference_shape := [(0, 0); (4, 4)];
  holistic_features := "no_op"
|}.

(** Two scales, but a single appearance model. *)
Definition model_short : GenerativeAPS := {|
  appearance_models := [1];
  shape_models := [11; 12];
  deformation_models := [21; 22];
  patch_shape := [(17, 17); (9, 9)];
  patch_normalisation := ["no_op"; "normalize_norm"];
  use_procrustes := false;
  n_scales := 2;
  scales := [1; 2];
  reference_shape := [(0, 0); (4, 4)];
  holistic_features := "no_op"
|}.

(** Two scales, a single appearance model, and no patch shapes. *)
Definition model_short_without_patch_shapes : GenerativeAPS := {|
  appearance_models := [1];
  shape_models := [11; 12];
  deformation_models := [21; 22];
  patch_shape := [];
  patch_normalisation := ["no_op"; "normalize_norm"];
  use_procrustes := false;
  n_scales := 2;
  scales := [1; 2];
  reference_shape := [(0, 0); (4, 4)];
  holistic_features := "no_op"
|}.


Definition store (m : GenerativeAPS) : heap := {[ 7%positive := ModelObject m ]}.

(** A shape-component check that accepts everything, and one that refuses
    more than three components. *)
Definition accept_n_shape (_ : heap) (_ : loc) (_ : option nat) : option exn :=
  None.

Definition at_most_three (_ : heap) (_ : loc) (n : option nat) : option exn :=
  match n with
  | Some k => if decide (k ≤ 3) then None else Some (ValueError "n_shape")
  | None => None
  end.

End Example.

(** ** The example run *)

Module Run.

(** [GaussNewtonAPSFitter(aps)] with every default, on a store that holds
    only the model [m]. *)
Definition gauss_newton (m : GenerativeAPS) : result loc * heap :=
  GaussNewtonAPSFitter.new Example.accept_n_shape checks.check_sampling
    7%positive Inverse None true (SamplingValue SamplingNone)
    (Example.store m).



End Run.

(** ** Running the primitives *)

Section Runs.
Context `{Collaborators}.
Implicit Types (h : heap) (d : gmap string value) (self aps : loc).

Lemma bind_ok {A B} (c : M A) (k : A → M B) h a h' :
  c h = (Ok a, h') → (c ≫= k) h = k a h'.
Proof. intros Hc. unfold mbind, M_bind. by rewrite Hc. Qed.

Lemma bind_raise {A B} (c : M A) (k : A → M B) h e h' :
  c h = (Raise e, h') → (c ≫= k) h = (Raise e, h').
Proof. intros Hc. unfold mbind, M_bind. by rewrite Hc. Qed.

Lemma setattr_run h self d name v :
  h !! self = Some (FitterObject d) →
  setattr self name v h
  = (Ok (), <[self := FitterObject (<[name := v]> d)]> h).
Proof. intros Hs. unfold setattr. by rewrite Hs. Qed.

Lemma getattr_run h self d name v :
  h !! self = Some (FitterObject d) → d !! name = Some v →
  getattr self name h = (Ok v, h).
Proof. intros Hs Hv. unfold getattr. by rewrite Hs, Hv. Qed.

Lemma model_attr_run {A} h aps m name (field : GenerativeAPS → A) :
  h !! aps = Some (ModelObject m) →
  model_attr (VRef aps) name field h = (Ok (field m), h).
Proof. intros Hm. unfold model_attr. by rewrite Hm. Qed.

Lemma model_attr_not_a_model {A} h aps name (field : GenerativeAPS → A) :
  (∀ m, h !! aps ≠ Some (ModelObject m)) →
  model_attr (VRef aps) name field h = (Raise (AttributeError name), h).
Proof.
  intros Hm. unfold model_attr.
  destruct (h !! aps) as [[m|d]|] eqn:E; try done. by destruct (Hm m).
Qed.

Lemma index_run {A} (l : list A) j h :
  index l j h = match l !! j with
                | Some x => (Ok x, h)
                | None => (Raise IndexError, h)
                end.
Proof. unfold index. by destruct (l !! j). Qed.

Lemma fresh_not_in_store h : h !! fresh (dom h) = None.
Proof. apply not_elem_of_dom, is_fresh. Qed.

Lemma new_object_run h : new_object h = (Ok (fresh (dom h)), allocated h).
Proof. done. Qed.

End Runs.

(** Steps of a computation whose first action is known to return:
    [self.name] with the fitter at [Hs] holding the attribute by [Hv];
    [self.name = v]; and [self.aps.name] or [self._model.name], where the
    model is in the store by [Ha]. *)
Ltac read_attr Hs Hv := rewrite (bind_ok _ _ _ _ _ (getattr_run _ _ _ _ _ Hs Hv)).

Ltac write_attr Hs := rewrite (bind_ok _ _ _ _ _ (setattr_run _ _ _ _ _ Hs)).

Ltac read_model Hs Hm Ha :=
  read_attr Hs Hm; rewrite (bind_ok _ _ _ _ _ (model_attr_run _ _ _ _ _ Ha)).

(** ** The loop of [_set_up] *)

Section Loop.
Context `{Collaborators}.
Implicit Types (h : heap) (d : gmap string value) (self aps : loc).
Implicit Types (m : GenerativeAPS) (acc algs : list algorithm).

Lemma wiring_state_ne h self aps m d acc :
  wiring_state h self aps m d acc → self ≠ aps.
Proof. intros [Hs _ Ha _] ->. congruence. Qed.

Lemma wiring_state_appended h self aps m d acc algs :
  wiring_state h self aps m d acc →
  wiring_state (appended h self d algs) self aps m
               (<["algorithms" := VAlgorithms algs]> d) algs.
Proof.
  intros Hw. pose proof (wiring_state_ne _ _ _ _ _ _ Hw) as Hne.
  destruct Hw as [Hs Hm Ha Hl]. unfold appended. split.
  - by rewrite lookup_insert_eq.
  - by rewrite lookup_insert_ne.
  - by rewrite lookup_insert_ne.
  - by rewrite lookup_insert_eq.
Qed.

Lemma appended_same h self aps m d acc :
  wiring_state h self aps m d acc → appended h self d acc = h.
Proof.
  intros [Hs _ _ Hl]. unfold appended.
  rewrite (insert_id d) by done. by apply insert_id.
Qed.

Lemma appended_twice h self d algs algs' :
  appended (appended h self d algs) self
           (<["algorithms" := VAlgorithms algs]> d) algs'
  = appended h self d algs'.
Proof. unfold appended. by rewrite !insert_insert_eq. Qed.

Lemma _set_up_body_run h self aps m d acc cls udc x :
  wiring_state h self aps m d acc →
  GaussNewtonAPSFitter._set_up_body self cls udc x h
  = match wire m cls udc x with
    | Some a => (Ok (), appended h self d (acc ++ [a]))
    | None => (Raise IndexError, h)
    end.
Proof.
  intros [Hs Hm Ha Hl]. destruct x as [j [[[am sm] dm] s]].
  unfold GaussNewtonAPSFitter._set_up_body, wire, APSFitter.aps.
  read_model Hs Hm Ha. read_model Hs Hm Ha.
  unfold mbind at 1, M_bind at 1. rewrite index_run.
  destruct (patch_shape m !! j) as [ps|]; [simpl|done].
  read_model Hs Hm Ha.
  unfold mbind at 1, M_bind at 1. rewrite index_run.
  destruct (patch_normalisation m !! j) as [pn|]; [simpl|done].
  unfold GaussNewtonAPSFitter.self_algorithms.
  unfold mbind at 1, M_bind at 1.
  read_attr Hs Hl.
  simpl. unfold mret, M_ret. by rewrite (setattr_run _ _ _ _ _ Hs).
Qed.

Lemma for_each_set_up_body h self aps m d acc cls udc xs :
  wiring_state h self aps m d acc →
  for_each xs (GaussNewtonAPSFitter._set_up_body self cls udc) h
  = (match (wire_all m cls udc xs).2 with
     | None => Ok ()
     | Some e => Raise e
     end,
     appended h self d (acc ++ (wire_all m cls udc xs).1)).
Proof.
  revert h d acc. induction xs as [|x xs IH]; intros h d acc Hw; simpl.
  - rewrite app_nil_r. by rewrite (appended_same _ _ _ _ _ _ Hw).
  - unfold mbind at 1, M_bind at 1.
    rewrite (_set_up_body_run _ _ _ _ _ _ _ _ _ Hw).
    destruct (wire m cls udc x) as [a|]; simpl.
    + rewrite (IH _ _ _ (wiring_state_appended _ _ _ _ _ _ (acc ++ [a]) Hw)).
      rewrite appended_twice.
      destruct (wire_all m cls udc xs) as [algs e]; simpl.
      by rewrite <- app_assoc.
    + rewrite app_nil_r. by rewrite (appended_same _ _ _ _ _ _ Hw).
Qed.

End Loop.

(** ** [_set_up] and [__init__] as a whole *)

Section Construction.
Context `{Collaborators}.
Implicit Types (h : heap) (d : gmap string value) (self aps : loc).
Implicit Types (m : GenerativeAPS) (ss : list sampling_entry).

Lemma _set_up_run h self aps m d ss cls udc :
  h !! self = Some (FitterObject d) →
  d !! "_model" = Some (VRef aps) →
  d !! "_sampling" = Some (VSampling ss) →
  h !! aps = Some (ModelObject m) →
  GaussNewtonAPSFitter._set_up self cls udc h
  = (match (wire_all m cls udc (scale_tuples m ss)).2 with
     | None => Ok ()
     | Some e => Raise e
     end,
     appended h self d (wire_all m cls udc (scale_tuples m ss)).1).
Proof.
  intros Hs Hm Hss Ha.
  assert (self ≠ aps) as Hne by (intros ->; congruence).
  assert (wiring_state (appended h self d []) self aps m
            (<["algorithms" := VAlgorithms []]> d) []) as Hw.
  { unfold appended. split.
    - by rewrite lookup_insert_eq.
    - by rewrite lookup_insert_ne.
    - by rewrite lookup_insert_ne.
    - by rewrite lookup_insert_eq. }
  destruct Hw as [Hs' Hm' Ha' Hl'].
  assert (<["algorithms" := VAlgorithms []]> d !! "_sampling"
          = Some (VSampling ss)) as Hss' by by rewrite lookup_insert_ne.
  unfold GaussNewtonAPSFitter._set_up, APSFitter.aps.
  write_attr Hs.
  fold (appended h self d []).
  do 3 read_model Hs' Hm' Ha'.
  unfold GaussNewtonAPSFitter.self_sampling.
  unfold mbind at 1, M_bind at 1.
  read_attr Hs' Hss'.
  simpl. fold (scale_tuples m ss).
  rewrite (for_each_set_up_body _ _ _ _ _ _ _ _ _
             (Build_wiring_state _ _ _ _ _ _ Hs' Hm' Ha' Hl')).
  simpl. by rewrite appended_twice.
Qed.

Lemma new_run check_n_shape check_sampling aps cls n_shape udc sampling h :
  GaussNewtonAPSFitter.new check_n_shape check_sampling aps cls n_shape udc
                           sampling h
  = construction check_n_shape check_sampling aps cls n_shape udc sampling h.
Proof.
  unfold GaussNewtonAPSFitter.new, construction.
  rewrite (bind_ok _ _ _ _ _ (new_object_run h)).
  set (self := fresh (dom h)).
  assert (h !! self = None) as Hfresh by apply fresh_not_in_store.
  assert (allocated h !! self = Some (FitterObject ∅)) as Hs0
    by apply lookup_insert_eq.
  unfold mbind at 1, M_bind at 1. unfold GaussNewtonAPSFitter.__init__.
  rewrite (bind_ok _ _ _ _ _ (setattr_run _ _ _ _ _ Hs0)).
  assert (<[self := FitterObject (<["_model" := VRef aps]> ∅)]> (allocated h)
          = model_stored h aps) as ->.
  { unfold allocated, model_stored. fold self. by rewrite insert_insert_eq. }
  assert (model_stored h aps !! self
          = Some (FitterObject {["_model" := VRef aps]})) as Hs1
    by apply lookup_insert_eq.
  unfold mbind at 1, M_bind at 1.
  unfold GaussNewtonAPSFitter._check_n_shape at 1.
  destruct (check_n_shape (model_stored h aps) self n_shape) as [e|]; [done|].
  destruct (h !! aps) as [[m|d]|] eqn:Ha.
  - assert (self ≠ aps) as Hne by (intros ->; congruence).
    assert (model_stored h aps !! aps = Some (ModelObject m)) as Ha1.
    { unfold model_stored. fold self. by rewrite lookup_insert_ne. }
    rewrite (bind_ok _ _ _ _ _ (model_attr_run _ _ _ _ _ Ha1)).
    unfold mbind at 1, M_bind at 1.
    unfold GaussNewtonAPSFitter.checks_check_sampling at 1.
    destruct (check_sampling sampling (n_scales m)) as [e|ss]; [done|].
    rewrite (bind_ok _ _ _ _ _ (setattr_run _ _ _ _ _ Hs1)).
    set (d2 := <["_sampling" := VSampling ss]> {["_model" := VRef aps]}).
    set (h2 := <[self := FitterObject d2]> (model_stored h aps)).
    assert (h2 !! self = Some (FitterObject d2)) as Hs2
      by apply lookup_insert_eq.
    assert (h2 !! aps = Some (ModelObject m)) as Ha2.
    { unfold h2. by rewrite lookup_insert_ne. }
    rewrite (_set_up_run h2 self aps m d2 ss) by done.
    assert (∀ algs, appended h2 self d2 algs
                    = <[self := FitterObject (wired_attrs aps ss algs)]> h)
      as Happ.
    { intros algs. unfold appended, h2, model_stored. fold self.
      by rewrite !insert_insert_eq. }
    rewrite Happ.
    by destruct (wire_all m cls udc (scale_tuples m ss)).2.
  - rewrite (bind_raise _ _ _ (AttributeError "n_scales") (model_stored h aps));
      [done|].
    apply model_attr_not_a_model. intros m.
    unfold model_stored. fold self.
    destruct (decide (self = aps)) as [->|Hne].
    + by rewrite lookup_insert_eq.
    + rewrite lookup_insert_ne by done. by rewrite Ha.
  - rewrite (bind_raise _ _ _ (AttributeError "n_scales") (model_stored h aps));
      [done|].
    apply model_attr_not_a_model. intros m.
    unfold model_stored. fold self.
    destruct (decide (self = aps)) as [->|Hne].
    + by rewrite lookup_insert_eq.
    + rewrite lookup_insert_ne by done. by rewrite Ha.
Qed.

End Construction.

(** ** [zip], [enumerate] and the list the loop builds *)

Section Lists.
Context `{Collaborators}.
Implicit Types (m : GenerativeAPS) (ss : list sampling_entry).
Implicit Types (algs : list algorithm).

Lemma zip_lookup {A B C D} (l1 : list A) (l2 : list B) (l3 : list C)
    (l4 : list D) j a b c d :
  zip l1 l2 l3 l4 !! j = Some (a, b, c, d)
  ↔ l1 !! j = Some a ∧ l2 !! j = Some b ∧ l3 !! j = Some c ∧ l4 !! j = Some d.
Proof.
  revert l2 l3 l4 j.
  induction l1 as [|a1 l1 IH]; intros [|b2 l2] [|c3 l3] [|d4 l4] j;
    try (split; [done | by destruct j; intros (?&?&?&?)]).
  destruct j as [|j]; simpl.
  - split; [by intros [= -> -> -> ->] | by intros ([= ->]&[= ->]&[= ->]&[= ->])].
  - apply IH.
Qed.

Lemma length_zip {A B C D} (l1 : list A) (l2 : list B) (l3 : list C)
    (l4 : list D) :
  length (zip l1 l2 l3 l4)
  = length l1 `min` (length l2 `min` (length l3 `min` length l4)).
Proof.
  revert l2 l3 l4.
  induction l1 as [|a1 l1 IH]; intros [|b2 l2] [|c3 l3] [|d4 l4]; simpl;
    try done; try lia.
  by rewrite IH.
Qed.

Lemma enumerate_from_lookup {A} (l : list A) k j i x :
  enumerate_from k l !! j = Some (i, x) ↔ i = k + j ∧ l !! j = Some x.
Proof.
  revert k j. induction l as [|y l IH]; intros k j; simpl.
  - split; [done | by intros [_ ?]].
  - destruct j as [|j]; simpl.
    + split; [intros [= <- <-]; split; [lia | done] |].
      intros [-> [= ->]]. do 3 f_equal. lia.
    + rewrite IH. split; intros [-> ?]; (split; [lia | done]).
Qed.

Lemma length_enumerate_from {A} (l : list A) k :
  length (enumerate_from k l) = length l.
Proof. revert k. induction l as [|y l IH]; intros k; simpl; [done|]. by rewrite IH. Qed.

Lemma scale_tuples_lookup m ss j i am sm dm s :
  scale_tuples m ss !! j = Some (i, (am, sm, dm, s))
  ↔ i = j ∧ appearance_models m !! j = Some am ∧ shape_models m !! j = Some sm
    ∧ deformation_models m !! j = Some dm ∧ ss !! j = Some s.
Proof.
  unfold scale_tuples, enumerate.
  rewrite enumerate_from_lookup, zip_lookup. naive_solver.
Qed.

Lemma length_scale_tuples m ss :
  length (scale_tuples m ss)
  = length (appearance_models m)
    `min` (length (shape_models m)
    `min` (length (deformation_models m) `min` length ss)).
Proof.
  unfold scale_tuples, enumerate.
  by rewrite length_enumerate_from, length_zip.
Qed.

Lemma wire_all_lookup m cls udc xs j a :
  (wire_all m cls udc xs).1 !! j = Some a →
  ∃ x, xs !! j = Some x ∧ wire m cls udc x = Some a.
Proof.
  revert j. induction xs as [|x xs IH]; intros j; simpl; [done|].
  destruct (wire m cls udc x) as [a0|] eqn:Hx; [|done].
  destruct (wire_all m cls udc xs) as [algs e]; simpl in *.
  destruct j as [|j]; simpl.
  - intros [= ->]. by exists x.
  - apply IH.
Qed.

Lemma wire_all_length m cls udc xs :
  (wire_all m cls udc xs).2 = None →
  length (wire_all m cls udc xs).1 = length xs.
Proof.
  induction xs as [|x xs IH]; simpl; [done|].
  destruct (wire m cls udc x) as [a0|]; [|done].
  destruct (wire_all m cls udc xs) as [algs e]; simpl in *.
  intros He. by rewrite IH.
Qed.

Lemma wire_all_complete m cls udc xs :
  (∀ j x, xs !! j = Some x → is_Some (wire m cls udc x)) →
  (wire_all m cls udc xs).2 = None.
Proof.
  induction xs as [|x xs IH]; simpl; [done|]. intros Hall.
  destruct (Hall 0 x eq_refl) as [a ->].
  destruct (wire_all m cls udc xs) as [algs e]; simpl in *.
  apply IH. intros j y Hy. by apply (Hall (S j)).
Qed.

Lemma wire_all_error m cls udc xs e :
  (wire_all m cls udc xs).2 = Some e → e = IndexError.
Proof.
  induction xs as [|x xs IH]; simpl; [done|].
  destruct (wire m cls udc x); [|by intros [= <-]].
  by destruct (wire_all m cls udc xs).
Qed.

(** The [j]-th algorithm is the one built from the [j]-th entry of every
    per-scale list. *)
Lemma wired_lookup m cls udc ss j a :
  (wire_all m cls udc (scale_tuples m ss)).1 !! j = Some a →
  ∃ am sm dm s ps pn,
    appearance_models m !! j = Some am ∧ shape_models m !! j = Some sm
    ∧ deformation_models m !! j = Some dm ∧ ss !! j = Some s
    ∧ patch_shape m !! j = Some ps ∧ patch_normalisation m !! j = Some pn
    ∧ a = Algorithm cls
            (GaussNewtonBaseInterface am dm
               (if use_procrustes m then OrthoPDM sm else PDM sm)
               udc (mean am) s ps pn).
Proof.
  intros Ha. apply wire_all_lookup in Ha as ([i [[[am sm] dm] s]] & Hx & Hw).
  apply scale_tuples_lookup in Hx as (-> & Ham & Hsm & Hdm & Hs).
  unfold wire in Hw.
  destruct (patch_shape m !! j) as [ps|]; [|done].
  destruct (patch_normalisation m !! j) as [pn|]; [|done].
  simpl in Hw. injection Hw as <-. by exists am, sm, dm, s, ps, pn.
Qed.

(** With patch entries for every tuple, the loop runs to its end. *)
Lemma wired_complete m cls udc ss :
  length (scale_tuples m ss) ≤ length (patch_shape m) →
  length (scale_tuples m ss) ≤ length (patch_normalisation m) →
  (wire_all m cls udc (scale_tuples m ss)).2 = None.
Proof.
  intros Hps Hpn. apply wire_all_complete.
  intros j [i [[[am sm] dm] s]] Hx.
  pose proof (lookup_lt_Some _ _ _ Hx) as Hj.
  apply scale_tuples_lookup in Hx as (-> & _).
  destruct (lookup_lt_is_Some_2 (patch_shape m) j) as [ps Hp]; [lia|].
  destruct (lookup_lt_is_Some_2 (patch_normalisation m) j) as [pn Hn]; [lia|].
  unfold wire. rewrite Hp, Hn. by eexists.
Qed.

End Lists.

(** ** Outcomes of the two constructors *)

Section Outcomes.
Context `{Collaborators}.
Implicit Types (h : heap) (d : gmap string value) (self aps : loc).
Implicit Types (m : GenerativeAPS) (ss : list sampling_entry).

Lemma new_ok_inv check_n_shape check_sampling aps cls n_shape udc sampling
    h self h' :
  GaussNewtonAPSFitter.new check_n_shape check_sampling aps cls n_shape udc
                           sampling h = (Ok self, h') →
  self = fresh (dom h) ∧
  ∃ m ss,
    h !! aps = Some (ModelObject m)
    ∧ check_n_shape (model_stored h aps) self n_shape = None
    ∧ check_sampling sampling (n_scales m) = inr ss
    ∧ (wire_all m cls udc (scale_tuples m ss)).2 = None
    ∧ h' = <[self := FitterObject
               (wired_attrs aps ss (wire_all m cls udc (scale_tuples m ss)).1)]> h.
Proof.
  rewrite new_run. unfold construction.
  destruct (check_n_shape _ _ _) eqn:Hn; [done|].
  destruct (h !! aps) as [[m|d]|] eqn:Ha; [|done|done].
  destruct (check_sampling _ _) as [e|ss] eqn:Hs; [done|]. simpl.
  destruct (wire_all m cls udc (scale_tuples m ss)).2 eqn:Hw; [done|].
  intros [= <- <-]. split; [done|]. by exists m, ss.
Qed.

Lemma new_ok check_n_shape check_sampling aps cls n_shape udc sampling h m ss :
  h !! aps = Some (ModelObject m) →
  check_n_shape (model_stored h aps) (fresh (dom h)) n_shape = None →
  check_sampling sampling (n_scales m) = inr ss →
  (wire_all m cls udc (scale_tuples m ss)).2 = None →
  GaussNewtonAPSFitter.new check_n_shape check_sampling aps cls n_shape udc
                           sampling h
  = (Ok (fresh (dom h)),
     <[fresh (dom h) := FitterObject
         (wired_attrs aps ss (wire_all m cls udc (scale_tuples m ss)).1)]> h).
Proof.
  intros Ha Hn Hs Hw. rewrite new_run. unfold construction.
  by rewrite Hn, Ha, Hs, Hw.
Qed.

(** Construction writes to the object it allocated and nowhere else. *)
Lemma new_frame check_n_shape check_sampling aps cls n_shape udc sampling h l :
  l ≠ fresh (dom h) →
  (GaussNewtonAPSFitter.new check_n_shape check_sampling aps cls n_shape udc
                            sampling h).2 !! l = h !! l.
Proof.
  intros Hl. rewrite new_run. unfold construction, model_stored.
  destruct (check_n_shape _ _ _); [simpl; by rewrite lookup_insert_ne|].
  destruct (h !! aps) as [[m|d]|]; [|simpl; by rewrite lookup_insert_ne..].
  destruct (check_sampling _ _) as [e|ss]; simpl; by rewrite lookup_insert_ne.
Qed.

Lemma fitter_attr_insert h self d name :
  fitter_attr (<[self := FitterObject d]> h) self name = d !! name.
Proof. unfold fitter_attr. by rewrite lookup_insert_eq. Qed.

(** A construction that returned built one algorithm for each tuple of the
    zip, each from the entries at its own index. *)
Lemma new_ok_entries check_n_shape check_sampling aps cls n_shape udc sampling
    h self h' m ss :
  GaussNewtonAPSFitter.new check_n_shape check_sampling aps cls n_shape udc
                           sampling h = (Ok self, h') →
  h !! aps = Some (ModelObject m) →
  check_sampling sampling (n_scales m) = inr ss →
  ∃ algs,
    fitter_attr h' self "algorithms" = Some (VAlgorithms algs)
    ∧ length algs = shortest_list m ss
    ∧ ∀ j, j < shortest_list m ss →
        ∃ am sm dm s ps pn,
          appearance_models m !! j = Some am
          ∧ shape_models m !! j = Some sm
          ∧ deformation_models m !! j = Some dm
          ∧ ss !! j = Some s
          ∧ patch_shape m !! j = Some ps
          ∧ patch_normalisation m !! j = Some pn
          ∧ algs !! j
            = Some (Algorithm cls
                      (GaussNewtonBaseInterface am dm
                         (if use_procrustes m then OrthoPDM sm else PDM sm)
                         udc (mean am) s ps pn)).
Proof.
  intros Hnew Ha Hs.
  apply new_ok_inv in Hnew as (-> & m' & ss' & Ha' & _ & Hs' & Hw & ->).
  assert (m' = m) as -> by congruence.
  assert (ss' = ss) as -> by congruence.
  exists (wire_all m cls udc (scale_tuples m ss)).1.
  split; [by rewrite fitter_attr_insert|].
  pose proof (wire_all_length _ _ _ _ Hw) as Hl.
  rewrite length_scale_tuples in Hl. fold (shortest_list m ss) in Hl.
  split; [done|]. intros j Hj.
  destruct (lookup_lt_is_Some_2 (wire_all m cls udc (scale_tuples m ss)).1 j)
    as [a Hja]; [lia|].
  destruct (wired_lookup _ _ _ _ _ _ Hja)
    as (am & sm & dm & s & ps & pn & ? & ? & ? & ? & ? & ? & ->).
  by exists am, sm, dm, s, ps, pn.
Qed.


Lemma APSFitter_new_run aps algs h :
  APSFitter.new aps algs h
  = match h !! aps with
    | Some (ModelObject m) =>
        (Ok (fresh (dom h)),
         <[fresh (dom h) := FitterObject (base_attrs aps m algs)]> h)
    | _ => (Raise (AttributeError "scales"), model_stored h aps)
    end.
Proof.
  unfold APSFitter.new.
  rewrite (bind_ok _ _ _ _ _ (new_object_run h)).
  set (self := fresh (dom h)).
  assert (h !! self = None) as Hfresh by apply fresh_not_in_store.
  assert (allocated h !! self = Some (FitterObject ∅)) as Hs0
    by apply lookup_insert_eq.
  unfold mbind at 1, M_bind at 1. unfold APSFitter.__init__.
  rewrite (bind_ok _ _ _ _ _ (setattr_run _ _ _ _ _ Hs0)).
  assert (<[self := FitterObject (<["_model" := VRef aps]> ∅)]> (allocated h)
          = model_stored h aps) as ->.
  { unfold allocated, model_stored. fold self. by rewrite insert_insert_eq. }
  assert (∀ m, h !! aps ≠ Some (ModelObject m) →
               model_stored h aps !! aps ≠ Some (ModelObject m)) as Hnot.
  { intros m Hm. unfold model_stored. fold self.
    destruct (decide (self = aps)) as [->|Hne].
    - by rewrite lookup_insert_eq.
    - by rewrite lookup_insert_ne. }
  destruct (h !! aps) as [[m|d]|] eqn:Ha.
  - assert (self ≠ aps) as Hne by (intros ->; congruence).
    assert (model_stored h aps !! aps = Some (ModelObject m)) as Ha1.
    { unfold model_stored. fold self. by rewrite lookup_insert_ne. }
    rewrite !(bind_ok _ _ _ _ _ (model_attr_run _ _ _ _ _ Ha1)).
    unfold APSFitter.MultiScaleParametricFitter__init__.
    unfold model_stored. fold self.
    repeat (erewrite bind_ok;
            [|apply setattr_run, lookup_insert_eq]; rewrite insert_insert_eq).
    erewrite setattr_run by apply lookup_insert_eq.
    by rewrite insert_insert_eq.
  - rewrite (bind_raise _ _ _ (AttributeError "scales") (model_stored h aps));
      [done|].
    apply model_attr_not_a_model. intros m. by apply Hnot.
  - rewrite (bind_raise _ _ _ (AttributeError "scales") (model_stored h aps));
      [done|].
    apply model_attr_not_a_model. intros m. by apply Hnot.
Qed.

Lemma APSFitter_new_ok_inv aps algs h self h' :
  APSFitter.new aps algs h = (Ok self, h') →
  self = fresh (dom h) ∧
  ∃ m, h !! aps = Some (ModelObject m)
       ∧ h' = <[self := FitterObject (base_attrs aps m algs)]> h.
Proof.
  rewrite APSFitter_new_run.
  destruct (h !! aps) as [[m|d]|] eqn:Ha; [|done|done].
  intros [= <- <-]. split; [done|]. by exists m.
Qed.

End Outcomes.

(** ** The claims about the wiring *)

Section Claims.
Context `{Collaborators}.
Implicit Types (h : heap) (d : gmap string value) (self aps : loc).
Implicit Types (m : GenerativeAPS) (ss : list sampling_entry).
Implicit Types (algs : list algorithm).

(** C1 (as amended).  For a trained model with [N] scales whose appearance,
    shape and deformation model lists each have length [N] and whose
    patch-shape and patch-normalisation lists each have at least [N]
    entries, a shape-component selection that passes [_check_n_shape], and a
    sampling specification that [check_sampling] normalises to [N] entries,
    constructing [GaussNewtonAPSFitter] returns a fitter whose [algorithms]
    list has exactly [N] objects, the [j]-th built from the [j]-th
    appearance, shape, deformation and sampling entries. *)
Theorem algorithms_one_per_scale check_n_shape check_sampling aps cls n_shape
    udc sampling h m ss N :
  h !! aps = Some (ModelObject m) →
  n_scales m = N →
  length (appearance_models m) = N →
  length (shape_models m) = N →
  length (deformation_models m) = N →
  check_sampling sampling N = inr ss →
  length ss = N →
  N ≤ length (patch_shape m) →
  N ≤ length (patch_normalisation m) →
  check_n_shape (model_stored h aps) (fresh (dom h)) n_shape = None →
  ∃ self h' algs,
    GaussNewtonAPSFitter.new check_n_shape check_sampling aps cls n_shape udc
                             sampling h = (Ok self, h')
    ∧ fitter_attr h' self "algorithms" = Some (VAlgorithms algs)
    ∧ length algs = N
    ∧ ∀ j, j < N →
        ∃ am sm dm s ps pn,
          appearance_models m !! j = Some am
          ∧ shape_models m !! j = Some sm
          ∧ deformation_models m !! j = Some dm
          ∧ ss !! j = Some s
          ∧ patch_shape m !! j = Some ps
          ∧ patch_normalisation m !! j = Some pn
          ∧ algs !! j
            = Some (Algorithm cls
                      (GaussNewtonBaseInterface am dm
                         (if use_procrustes m then OrthoPDM sm else PDM sm)
                         udc (mean am) s ps pn)).
Proof.
  intros Ha HN Ham Hsm Hdm Hcs Hss Hps Hpn Hcn.
  assert (length (scale_tuples m ss) = N) as Hlen
    by (rewrite length_scale_tuples; lia).
  assert ((wire_all m cls udc (scale_tuples m ss)).2 = None) as Hw
    by (apply wired_complete; lia).
  rewrite <- HN in Hcs.
  eexists (fresh (dom h)), _, (wire_all m cls udc (scale_tuples m ss)).1.
  split; [by apply new_ok|].
  split; [by rewrite fitter_attr_insert|].
  pose proof (wire_all_length _ _ _ _ Hw) as Hl. rewrite Hlen in Hl.
  split; [done|]. intros j Hj.
  destruct (lookup_lt_is_Some_2 (wire_all m cls udc (scale_tuples m ss)).1 j)
    as [a Hja]; [lia|].
  destruct (wired_lookup _ _ _ _ _ _ Hja)
    as (am & sm & dm & s & ps & pn & ? & ? & ? & ? & ? & ? & ->).
  by exists am, sm, dm, s, ps, pn.
Qed.


(** C3 (as amended).  Construction is all-or-nothing for the caller: for
    every input, the call either raises, or returns the new fitter with the
    model stored, the sampling normalised and one algorithm built for each
    tuple of the zip of the four per-scale lists (as many as the shortest of
    them has entries), the [j]-th from the [j]-th entries.  The fitter is an
    object the caller did not have, and the call puts no reference to it
    into any other object: when the call raises, which hands the caller no
    reference either, the half-built fitter is out of the caller's reach. *)
Theorem construction_all_or_nothing check_n_shape check_sampling aps cls
    n_shape udc sampling h :
  let self := fresh (dom h) in
  let outcome :=
    GaussNewtonAPSFitter.new check_n_shape check_sampling aps cls n_shape udc
                             sampling h in
  h !! self = None
  ∧ (∀ l o, l ≠ self → outcome.2 !! l = Some o → refers_to o self →
       ∃ o0, h !! l = Some o0 ∧ refers_to o0 self)
  ∧ ((∃ e, outcome.1 = Raise e)
     ∨ (outcome.1 = Ok self
        ∧ ∃ m ss algs,
            h !! aps = Some (ModelObject m)
            ∧ check_sampling sampling (n_scales m) = inr ss
            ∧ outcome.2 !! self
              = Some (FitterObject
                        (<["algorithms" := VAlgorithms algs]>
                           (<["_sampling" := VSampling ss]>
                              {["_model" := VRef aps]})))
            ∧ length algs = shortest_list m ss
            ∧ ∀ j, j < shortest_list m ss →
                ∃ am sm dm s ps pn,
                  appearance_models m !! j = Some am
                  ∧ shape_models m !! j = Some sm
                  ∧ deformation_models m !! j = Some dm
                  ∧ ss !! j = Some s
                  ∧ patch_shape m !! j = Some ps
                  ∧ patch_normalisation m !! j = Some pn
                  ∧ algs !! j
                    = Some (Algorithm cls
                              (GaussNewtonBaseInterface am dm
                                 (if use_procrustes m
                                  then OrthoPDM sm else PDM sm)
                                 udc (mean am) s ps pn)))).
Proof.
  intros self outcome. split; [apply fresh_not_in_store|].
  split.
  { intros l o Hl Ho Hr. exists o. split; [|done].
    unfold outcome in Ho. by rewrite new_frame in Ho. }
  destruct outcome as [[f|e] h'] eqn:Hout; simpl; [right|left; by exists e].
  unfold outcome in Hout.
  pose proof Hout as Hinv.
  apply new_ok_inv in Hinv as (-> & m & ss & Ha & _ & Hs & Hw & ->).
  split; [done|].
  destruct (new_ok_entries _ _ _ _ _ _ _ _ _ _ _ _ Hout Ha Hs)
    as (algs & Halgs & Hlen & Hall).
  rewrite fitter_attr_insert in Halgs.
  assert (algs = (wire_all m cls udc (scale_tuples m ss)).1) as ->.
  { unfold wired_attrs in Halgs. rewrite lookup_insert_eq in Halgs.
    by injection Halgs as <-. }
  exists m, ss, (wire_all m cls udc (scale_tuples m ss)).1.
  split; [done|]. split; [done|].
  split; [by rewrite lookup_insert_eq|]. by split.
Qed.

(** C4 (as amended).  Once the shape-component check has passed.
    [checks.check_sampling],
    as the spec describes it, raises on a sampling list whose number of
    entries differs from the model's scale count, and what it returns has
    one entry per scale.  Whatever error the sampling check raises is the
    error construction raises, with only [_model] set on the new object: no
    [algorithms] attribute, no algorithm built.  When the check returns, its
    list is stored as [_sampling] and construction goes on to the wiring,
    where the only failure left is an [IndexError]. *)
Theorem sampling_count_is_checked check_n_shape aps cls n_shape udc h m :
  h !! aps = Some (ModelObject m) →
  check_n_shape (model_stored h aps) (fresh (dom h)) n_shape = None →
  (∀ l, length l ≠ n_scales m →
     ∃ e, checks.check_sampling (SamplingList l) (n_scales m) = inl e)
  ∧ (∀ sampling ss,
       checks.check_sampling sampling (n_scales m) = inr ss →
       length ss = n_scales m)
  ∧ (∀ check_sampling sampling e,
       check_sampling sampling (n_scales m) = inl e →
       GaussNewtonAPSFitter.new check_n_shape check_sampling aps cls n_shape
                                udc sampling h
       = (Raise e,
          <[fresh (dom h) := FitterObject {["_model" := VRef aps]}]> h)
       ∧ fitter_attr
           (<[fresh (dom h) := FitterObject {["_model" := VRef aps]}]> h)
           (fresh (dom h)) "algorithms" = None)
  ∧ (∀ check_sampling sampling ss,
       check_sampling sampling (n_scales m) = inr ss →
       ∃ outcome h',
         GaussNewtonAPSFitter.new check_n_shape check_sampling aps cls n_shape
                                  udc sampling h = (outcome, h')
         ∧ fitter_attr h' (fresh (dom h)) "_sampling" = Some (VSampling ss)
         ∧ (outcome = Ok (fresh (dom h)) ∨ outcome = Raise IndexError)).
Proof.
  intros Ha Hn. split; [|split; [|split]].
  - intros l Hl. unfold checks.check_sampling.
    destruct (decide (length l = n_scales m)) as [|_]; [done|]. by eexists.
  - intros [s|l] ss Hs; simpl in Hs.
    + injection Hs as <-. apply length_replicate.
    + destruct (decide (length l = n_scales m)); [|done]. by injection Hs as <-.
  - intros check_sampling sampling e Hs.
    rewrite new_run. unfold construction. rewrite Hn, Ha, Hs.
    split; [done|]. by rewrite fitter_attr_insert.
  - intros check_sampling sampling ss Hs.
    rewrite new_run. unfold construction. rewrite Hn, Ha, Hs.
    eexists _, _. split; [done|].
    split; [by rewrite fitter_attr_insert|].
    destruct (wire_all m cls udc (scale_tuples m ss)).2 as [e|] eqn:Hw;
      simpl; [right|by left].
    by rewrite (wire_all_error _ _ _ _ _ Hw).
Qed.





(** C9 (as amended).  When one of the model's appearance, shape or
    deformation lists is shorter than the scale count while the sampling
    specification normalises to the scale count, and the patch-shape and
    patch-normalisation lists have at least as many entries as the shortest
    of the four zipped lists, construction does not raise: the zip is cut at
    the shortest list and [algorithms] has that many entries, fewer than the
    scale count. *)
Theorem short_model_lists_truncate check_n_shape check_sampling aps cls
    n_shape udc sampling h m ss :
  h !! aps = Some (ModelObject m) →
  check_n_shape (model_stored h aps) (fresh (dom h)) n_shape = None →
  check_sampling sampling (n_scales m) = inr ss →
  length ss = n_scales m →
  length (appearance_models m) < n_scales m
  ∨ length (shape_models m) < n_scales m
  ∨ length (deformation_models m) < n_scales m →
  shortest_list m ss ≤ length (patch_shape m) →
  shortest_list m ss ≤ length (patch_normalisation m) →
  ∃ self h' algs,
    GaussNewtonAPSFitter.new check_n_shape check_sampling aps cls n_shape udc
                             sampling h = (Ok self, h')
    ∧ fitter_attr h' self "algorithms" = Some (VAlgorithms algs)
    ∧ length algs = shortest_list m ss
    ∧ length algs < n_scales m.
Proof.
  intros Ha Hn Hs Hss Hshort Hps Hpn.
  assert (length (scale_tuples m ss) = shortest_list m ss) as Hlen
    by apply length_scale_tuples.
  assert ((wire_all m cls udc (scale_tuples m ss)).2 = None) as Hw
    by (apply wired_complete; lia).
  eexists (fresh (dom h)), _, (wire_all m cls udc (scale_tuples m ss)).1.
  split; [by apply new_ok|].
  split; [by rewrite fitter_attr_insert|].
  rewrite (wire_all_length _ _ _ _ Hw), Hlen. split; [done|].
  unfold shortest_list. lia.
Qed.

(** C10.  [GaussNewtonAPSFitter] construction sets [_model], [_sampling]
    and [algorithms] on the new object and nothing else: in particular none
    of the attributes that the initialiser of the base stores.  A fitter
    built by [APSFitter] has them, forwarded from the model. *)
Theorem gauss_newton_skips_base_init :
  (∀ check_n_shape check_sampling aps cls n_shape udc sampling h self h',
     GaussNewtonAPSFitter.new check_n_shape check_sampling aps cls n_shape
                              udc sampling h = (Ok self, h') →
     ∃ d ss algs,
       h' !! self = Some (FitterObject d)
       ∧ dom d = {[ "_model"; "_sampling"; "algorithms" ]}
       ∧ d !! "_model" = Some (VRef aps)
       ∧ d !! "_sampling" = Some (VSampling ss)
       ∧ d !! "algorithms" = Some (VAlgorithms algs)
       ∧ d !! "scales" = None
       ∧ d !! "reference_shape" = None
       ∧ d !! "holistic_features" = None)
  ∧ (∀ aps algs h self h',
       APSFitter.new aps algs h = (Ok self, h') →
       ∃ d m,
         h' !! self = Some (FitterObject d)
         ∧ h !! aps = Some (ModelObject m)
         ∧ d !! "_model" = Some (VRef aps)
         ∧ d !! "algorithms" = Some (VAlgorithms algs)
         ∧ d !! "scales" = Some (VScales (scales m))
         ∧ d !! "reference_shape" = Some (VReferenceShape (reference_shape m))
         ∧ d !! "holistic_features"
           = Some (VHolisticFeatures (holistic_features m))).
Proof.
  split.
  - intros check_n_shape check_sampling aps cls n_shape udc sampling h self h'
      Hnew.
    apply new_ok_inv in Hnew as (-> & m & ss & Ha & _ & _ & _ & ->).
    eexists _, ss, _. split; [by rewrite lookup_insert_eq|].
    split.
    { unfold wired_attrs. rewrite !dom_insert_L, dom_singleton_L. set_solver. }
    by repeat split.
  - intros aps algs h self h' Hnew.
    apply APSFitter_new_ok_inv in Hnew as (-> & m & Ha & ->).
    eexists _, m. split; [by rewrite lookup_insert_eq|].
    by repeat split.
Qed.

End Claims.

(** ** The theorems at the example *)

(** C1 as stated fails: with every list the claim names of length [2] and a
    sampling value normalised to [2] entries, but no patch shapes,
    construction raises [IndexError].  (And on the model with all its lists,
    a shape-component check that refuses [n_shape] ends construction before
    the sampling is looked at.) *)
Lemma algorithms_one_per_scale_needs_patch_shapes :
  let m := Example.model_without_patch_shapes in
  (Example.store m !! 7%positive = Some (ModelObject m)
   ∧ n_scales m = 2
   ∧ length (appearance_models m) = 2
   ∧ length (shape_models m) = 2
   ∧ length (deformation_models m) = 2
   ∧ checks.check_sampling (SamplingValue SamplingNone) 2
     = inr [SamplingNone; SamplingNone]
   ∧ (GaussNewtonAPSFitter.new Example.accept_n_shape checks.check_sampling
        7%positive Inverse None true (SamplingValue SamplingNone)
        (Example.store m)).1
     = Raise IndexError)
  ∧ (GaussNewtonAPSFitter.new Example.at_most_three checks.check_sampling
       7%positive Inverse (Some 5) true (SamplingValue SamplingNone)
       (Example.store Example.model)).1
    = Raise (ValueError "n_shape").
Proof. vm_compute. repeat split. Qed.

Lemma algorithms_one_per_scale_example :
  ∃ self h' algs,
    GaussNewtonAPSFitter.new Example.accept_n_shape checks.check_sampling
      7%positive Inverse None true (SamplingValue SamplingNone)
      (Example.store Example.model) = (Ok self, h')
    ∧ fitter_attr h' self "algorithms" = Some (VAlgorithms algs)
    ∧ length algs = 2
    ∧ ∀ j, j < 2 →
        ∃ am sm dm s ps pn,
          appearance_models Example.model !! j = Some am
          ∧ shape_models Example.model !! j = Some sm
          ∧ deformation_models Example.model !! j = Some dm
          ∧ [SamplingNone; SamplingNone] !! j = Some s
          ∧ patch_shape Example.model !! j = Some ps
          ∧ patch_normalisation Example.model !! j = Some pn
          ∧ algs !! j
            = Some (Algorithm Inverse
                      (GaussNewtonBaseInterface am dm
                         (if use_procrustes Example.model
                          then OrthoPDM sm else PDM sm)
                         true (mean am) s ps pn)).
Proof.
  apply (algorithms_one_per_scale Example.accept_n_shape checks.check_sampling
           7%positive Inverse None true (SamplingValue SamplingNone)
           (Example.store Example.model) Example.model
           [SamplingNone; SamplingNone] 2);
    first [ reflexivity | simpl; lia ].
Defined.



(** C3 as stated fails: the model has two scales and one appearance model;
    construction returns, and the fitter has one algorithm, not two. *)
Lemma construction_returns_fewer_algorithms :
  let m := Example.model_short in
  n_scales m = 2
  ∧ (Run.gauss_newton m).1 = Ok 8%positive
  ∧ fitter_attr (Run.gauss_newton m).2 8%positive "algorithms"
    = Some (VAlgorithms
              [Algorithm Inverse
                 (GaussNewtonBaseInterface 1 21 (PDM 11) true 101
                    SamplingNone (17, 17) "no_op")]).
Proof. vm_compute. repeat split. Qed.

(** C4 as stated fails: an empty sampling list for a model with two scales
    would be refused by [checks.check_sampling], but the shape-component
    check runs first; when it refuses [n_shape], construction raises its
    error, not the one of the sampling check. *)
Lemma sampling_error_hidden_by_n_shape_error :
  length ([] : list sampling_entry) ≠ n_scales Example.model
  ∧ checks.check_sampling (SamplingList []) (n_scales Example.model)
    = inl (ValueError "sampling: one entry per scale is needed")
  ∧ (GaussNewtonAPSFitter.new Example.at_most_three checks.check_sampling
       7%positive Inverse (Some 5) true (SamplingList [])
       (Example.store Example.model)).1
    = Raise (ValueError "n_shape").
Proof. vm_compute. repeat split. lia. Qed.

(** A list with one entry for a model with two scales. *)
Lemma sampling_count_example :
  GaussNewtonAPSFitter.new Example.accept_n_shape checks.check_sampling
    7%positive Inverse None true (SamplingList [SamplingNone])
    (Example.store Example.model)
  = (Raise (ValueError "sampling: one entry per scale is needed"),
     <[fresh (dom (Example.store Example.model))
       := FitterObject {["_model" := VRef 7%positive]}]>
       (Example.store Example.model))
  ∧ fitter_attr
      (<[fresh (dom (Example.store Example.model))
         := FitterObject {["_model" := VRef 7%positive]}]>
         (Example.store Example.model))
      (fresh (dom (Example.store Example.model))) "algorithms" = None.
Proof.
  refine (proj1 (proj2 (proj2
            (sampling_count_is_checked Example.accept_n_shape 7%positive
               Inverse None true (Example.store Example.model)
               Example.model _ _)))
            checks.check_sampling (SamplingList [SamplingNone]) _ _).
  - reflexivity.
  - reflexivity.
  - reflexivity.
Defined.








(** C9 as stated fails: one appearance model for two scales, a sampling
    value normalised to two entries, and no patch shapes; the loop of
    [_set_up] raises [IndexError] on its first tuple. *)
Lemma short_model_lists_raise_without_patch_shapes :
  let m := Example.model_short_without_patch_shapes in
  length (appearance_models m) < n_scales m
  ∧ checks.check_sampling (SamplingValue SamplingNone) (n_scales m)
    = inr [SamplingNone; SamplingNone]
  ∧ (Run.gauss_newton m).1 = Raise IndexError
  ∧ fitter_attr (Run.gauss_newton m).2 8%positive "_sampling"
    = Some (VSampling [SamplingNone; SamplingNone])
  ∧ fitter_attr (Run.gauss_newton m).2 8%positive "algorithms"
    = Some (VAlgorithms []).
Proof. vm_compute. repeat split. lia. Qed.

Lemma short_model_lists_example :
  ∃ self h' algs,
    GaussNewtonAPSFitter.new Example.accept_n_shape checks.check_sampling
      7%positive Inverse None true (SamplingValue SamplingNone)
      (Example.store Example.model_short) = (Ok self, h')
    ∧ fitter_attr h' self "algorithms" = Some (VAlgorithms algs)
    ∧ length algs
      = shortest_list Example.model_short [SamplingNone; SamplingNone]
    ∧ length algs < n_scales Example.model_short.
Proof.
  apply (short_model_lists_truncate Example.accept_n_shape
           checks.check_sampling 7%positive Inverse None true
           (SamplingValue SamplingNone) (Example.store Example.model_short)
           Example.model_short [SamplingNone; SamplingNone]);
    first [ reflexivity | left; simpl; lia | unfold shortest_list; simpl; lia ].
Defined.

Lemma gauss_newton_attributes_example :
  ∃ d ss algs,
    (Run.gauss_newton Example.model).2 !! 8%positive = Some (FitterObject d)
    ∧ dom d = {[ "_model"; "_sampling"; "algorithms" ]}
    ∧ d !! "_model" = Some (VRef 7%positive)
    ∧ d !! "_sampling" = Some (VSampling ss)
    ∧ d !! "algorithms" = Some (VAlgorithms algs)
    ∧ d !! "scales" = None
    ∧ d !! "reference_shape" = None
    ∧ d !! "holistic_features" = None.
Proof.
  apply (proj1 gauss_newton_skips_base_init Example.accept_n_shape
           checks.check_sampling 7%positive Inverse None true
           (SamplingValue SamplingNone) (Example.store Example.model)
           8%positive (Run.gauss_newton Example.model).2).
  vm_compute. reflexivity.
Defined.

(** ** Further properties of the two constructors and of [_set_up] *)

Section Further.
Context `{Collaborators}.
Implicit Types (h : heap) (self aps : loc).
Implicit Types (m : GenerativeAPS) (ss : list sampling_entry).
Implicit Types (algs : list algorithm).

(** Whether a tuple can be wired depends on the patch lists only, not on
    the class or the flag. *)
Lemma wire_all_outcome_any_class m cls udc cls' udc' xs :
  (wire_all m cls udc xs).2 = (wire_all m cls' udc' xs).2.
Proof.
  induction xs as [|[j [[[am sm] dm] s]] xs IH]; simpl; [done|].
  destruct (patch_shape m !! j) as [ps|]; simpl; [|done].
  destruct (patch_normalisation m !! j) as [pn|]; simpl; [|done].
  destruct (wire_all m cls udc xs) as [algs e].
  by destruct (wire_all m cls' udc' xs) as [algs' e'].
Qed.


Lemma wired_attrs_lookup_model aps ss algs :
  wired_attrs aps ss algs !! "_model" = Some (VRef aps).
Proof. done. Qed.

Lemma wired_attrs_lookup_sampling aps ss algs :
  wired_attrs aps ss algs !! "_sampling" = Some (VSampling ss).
Proof. done. Qed.

Lemma wired_attrs_again aps ss algs algs' :
  <["algorithms" := VAlgorithms algs']> (wired_attrs aps ss algs)
  = wired_attrs aps ss algs'.
Proof. unfold wired_attrs. by rewrite insert_insert_eq. Qed.

Lemma model_is_not_fresh h aps m :
  h !! aps = Some (ModelObject m) → fresh (dom h) ≠ aps.
Proof.
  intros Ha Heq. pose proof (fresh_not_in_store h) as Hf.
  rewrite Heq in Hf. congruence.
Qed.

(** X1.  The shape-component check comes first: when [_check_n_shape]
    raises, construction raises that error whatever the model reference and
    the sampling specification are, and the sampling was not looked at:
    neither [_sampling] nor [algorithms] is set on the new object. *)
Theorem n_shape_error_comes_first check_n_shape check_sampling aps cls n_shape
    udc sampling h e :
  check_n_shape (<[fresh (dom h) := FitterObject {["_model" := VRef aps]}]> h)
                (fresh (dom h)) n_shape = Some e →
  ∃ h',
    GaussNewtonAPSFitter.new check_n_shape check_sampling aps cls n_shape udc
                             sampling h = (Raise e, h')
    ∧ fitter_attr h' (fresh (dom h)) "_model" = Some (VRef aps)
    ∧ fitter_attr h' (fresh (dom h)) "_sampling" = None
    ∧ fitter_attr h' (fresh (dom h)) "algorithms" = None.
Proof.
  intros Hn. exists (model_stored h aps).
  rewrite new_run. unfold construction, model_stored. rewrite Hn.
  split; [done|]. by rewrite !fitter_attr_insert.
Qed.


(** X3.  After construction, every algorithm is an instance of the class
    that was passed as [gn_algorithm_cls], its interface carries the
    [use_deformation_cost] flag that was passed, and the deformation model of
    the [j]-th interface is the [j]-th deformation model of the model. *)
Theorem class_and_flag_reach_every_scale check_n_shape check_sampling aps cls
    n_shape udc sampling h self h' :
  GaussNewtonAPSFitter.new check_n_shape check_sampling aps cls n_shape udc
                           sampling h = (Ok self, h') →
  ∃ m algs,
    h !! aps = Some (ModelObject m)
    ∧ fitter_attr h' self "algorithms" = Some (VAlgorithms algs)
    ∧ ∀ j a, algs !! j = Some a →
        algorithm_cls a = cls
        ∧ interface_use_deformation_cost (algorithm_interface a) = udc
        ∧ deformation_models m !! j
          = Some (interface_deformation_model (algorithm_interface a)).
Proof.
  intros Hnew. apply new_ok_inv in Hnew as (-> & m & ss & Ha & _ & _ & _ & ->).
  exists m, (wire_all m cls udc (scale_tuples m ss)).1.
  split; [done|]. split; [by rewrite fitter_attr_insert|].
  intros j a Hja.
  by destruct (wired_lookup _ _ _ _ _ _ Hja)
    as (am & sm & dm & s & ps & pn & _ & _ & ? & _ & _ & _ & ->).
Qed.

(** X4.  [_set_up] starts from an empty list, so calling it again on a
    built fitter, with any class and flag, rebuilds [algorithms] instead of
    appending to it: the call returns, the list has one entry for each tuple
    of the zip as it had before, and every entry is of the class and has the
    flag of the second call. *)
Theorem set_up_again_rebuilds check_n_shape check_sampling aps cls n_shape udc
    sampling h self h' m ss cls' udc' :
  GaussNewtonAPSFitter.new check_n_shape check_sampling aps cls n_shape udc
                           sampling h = (Ok self, h') →
  h !! aps = Some (ModelObject m) →
  check_sampling sampling (n_scales m) = inr ss →
  ∃ h'' algs algs',
    GaussNewtonAPSFitter._set_up self cls' udc' h' = (Ok (), h'')
    ∧ fitter_attr h' self "algorithms" = Some (VAlgorithms algs)
    ∧ fitter_attr h'' self "algorithms" = Some (VAlgorithms algs')
    ∧ length algs = shortest_list m ss
    ∧ length algs' = shortest_list m ss
    ∧ ∀ j, j < shortest_list m ss →
        ∃ a, algs' !! j = Some a
             ∧ algorithm_cls a = cls'
             ∧ interface_use_deformation_cost (algorithm_interface a) = udc'.
Proof.
  intros Hnew Ha Hs.
  apply new_ok_inv in Hnew as (-> & m' & ss' & Ha' & _ & Hs' & Hw & ->).
  assert (m' = m) as -> by congruence.
  assert (ss' = ss) as -> by congruence.
  set (self := fresh (dom h)).
  set (algs := (wire_all m cls udc (scale_tuples m ss)).1).
  set (algs' := (wire_all m cls' udc' (scale_tuples m ss)).1).
  assert (self ≠ aps) as Hne by by eapply model_is_not_fresh.
  assert ((wire_all m cls' udc' (scale_tuples m ss)).2 = None) as Hw'
    by by rewrite (wire_all_outcome_any_class m cls' udc' cls udc).
  exists (<[self := FitterObject (wired_attrs aps ss algs')]> h), algs, algs'.
  split.
  { rewrite (_set_up_run _ self aps m (wired_attrs aps ss algs) ss);
      [|by rewrite lookup_insert_eq
       |apply wired_attrs_lookup_model
       |apply wired_attrs_lookup_sampling
       |by rewrite lookup_insert_ne].
    rewrite Hw'. unfold appended.
    by rewrite insert_insert_eq, wired_attrs_again. }
  split; [by rewrite fitter_attr_insert|].
  split; [by rewrite fitter_attr_insert|].
  assert (length algs = shortest_list m ss) as Hl.
  { unfold algs. rewrite wire_all_length by done. apply length_scale_tuples. }
  assert (length algs' = shortest_list m ss) as Hl'.
  { unfold algs'. rewrite wire_all_length by done. apply length_scale_tuples. }
  split; [done|]. split; [done|]. intros j Hj.
  destruct (lookup_lt_is_Some_2 algs' j) as [a Hja]; [lia|].
  exists a. split; [done|].
  by destruct (wired_lookup _ _ _ _ _ _ Hja)
    as (am & sm & dm & s & ps & pn & _ & _ & _ & _ & _ & _ & ->).
Qed.

End Further.

(** ** The further properties at the example *)

(** More than three shape components and an empty sampling list: the error
    is the one of the shape-component check. *)
Lemma n_shape_error_example :
  ∃ h',
    GaussNewtonAPSFitter.new Example.at_most_three checks.check_sampling
      7%positive Inverse (Some 5) true (SamplingList [])
      (Example.store Example.model) = (Raise (ValueError "n_shape"), h')
    ∧ fitter_attr h' (fresh (dom (Example.store Example.model))) "_model"
      = Some (VRef 7%positive)
    ∧ fitter_attr h' (fresh (dom (Example.store Example.model))) "_sampling"
      = None
    ∧ fitter_attr h' (fresh (dom (Example.store Example.model))) "algorithms"
      = None.
Proof.
  apply (n_shape_error_comes_first Example.at_most_three checks.check_sampling
           7%positive Inverse (Some 5) true (SamplingList [])
           (Example.store Example.model) (ValueError "n_shape")).
  reflexivity.
Defined.


Lemma class_and_flag_example :
  ∃ m algs,
    Example.store Example.model !! 7%positive = Some (ModelObject m)
    ∧ fitter_attr (Run.gauss_newton Example.model).2 8%positive "algorithms"
      = Some (VAlgorithms algs)
    ∧ ∀ j a, algs !! j = Some a →
        algorithm_cls a = Inverse
        ∧ interface_use_deformation_cost (algorithm_interface a) = true
        ∧ deformation_models m !! j
          = Some (interface_deformation_model (algorithm_interface a)).
Proof.
  apply (class_and_flag_reach_every_scale Example.accept_n_shape
           checks.check_sampling 7%positive Inverse None true
           (SamplingValue SamplingNone) (Example.store Example.model)
           8%positive (Run.gauss_newton Example.model).2).
  vm_compute. reflexivity.
Defined.

Lemma set_up_again_example :
  ∃ h'' algs algs',
    GaussNewtonAPSFitter._set_up 8%positive "Forward" false
      (Run.gauss_newton Example.model).2 = (Ok (), h'')
    ∧ fitter_attr (Run.gauss_newton Example.model).2 8%positive "algorithms"
      = Some (VAlgorithms algs)
    ∧ fitter_attr h'' 8%positive "algorithms" = Some (VAlgorithms algs')
    ∧ length algs = shortest_list Example.model [SamplingNone; SamplingNone]
    ∧ length algs' = shortest_list Example.model [SamplingNone; SamplingNone]
    ∧ ∀ j, j < shortest_list Example.model [SamplingNone; SamplingNone] →
        ∃ a, algs' !! j = Some a
             ∧ algorithm_cls a = "Forward"
             ∧ interface_use_deformation_cost (algorithm_interface a) = false.
Proof.
  apply (set_up_again_rebuilds Example.accept_n_shape checks.check_sampling
           7%positive Inverse None true (SamplingValue SamplingNone)
           (Example.store Example.model) 8%positive
           (Run.gauss_newton Example.model).2 Example.model
           [SamplingNone; SamplingNone] "Forward" false);
    first [ reflexivity | vm_compute; reflexivity ].
Defined.
